(** * WhatsApp message sender (app.py): a shallow embedding

    The program has two back-end functions, [send_pywhatkit_message]
    (browser automation through pywhatkit) and [send_twilio_message]
    (Twilio REST API), and a Streamlit script with one submit handler per
    form plus the loading of default credentials from [st.secrets].

    Calls into pywhatkit, Twilio, Streamlit and the clock are effects: they
    are recorded, in order, in a trace, and what the outside world answers
    is read from a [World].  Python exceptions are values threaded through a
    state-and-error monad. *)

From stdpp Require Import gmap strings pretty list.

Open Scope Z_scope.

(** ** Python values and exceptions *)

(** Values stored in the [schedule_time] dict. *)
Inductive PyVal :=
| VBool (b : bool)
| VInt (n : Z)
| VStr (s : string).

(** [bool(v)]: Python truth value. *)
Definition truthy (v : PyVal) : bool :=
  match v with
  | VBool b => b
  | VInt n => negb (n =? 0)
  | VStr s => negb (String.eqb s "")
  end.

(** Truth value of a [str]: only the empty string is false. *)
Definition str_truthy (s : string) : bool := negb (String.eqb s "").

(** Exception objects deriving from Python's [Exception], the class both
    [except Exception] clauses of the program select on.  A
    [TwilioRestException] carries its [msg] attribute next to the text
    [str(e)] produces; the other classes carry [str(e)]. *)
Inductive PyExn :=
| TwilioRestException (msg : string) (text : string)
| FileNotFoundError (text : string)
| KeyError (text : string)
| TypeError (text : string)
| OverflowError (text : string)
| OtherException (cls : string) (text : string).

(** [str(e)] *)
Definition str (e : PyExn) : string :=
  match e with
  | TwilioRestException _ t | FileNotFoundError t | KeyError t
  | TypeError t | OverflowError t | OtherException _ t => t
  end.

(** ** Calls to the collaborators *)

(** pywhatkit, imported as [kit]. *)
Inductive KitCall :=
| sendwhatmsg_instantly (phone_no message : string) (wait_time : Z) (tab_close : bool)
| sendwhatmsg (phone_no message : string) (time_hour time_min : Z).

(** twilio.rest: the [Client] constructor and [client.messages.create]. *)
Inductive TwilioCall :=
| Client (sid token : string)
| messages_create (body from_ to : string).

(** Streamlit output calls made by the handlers. *)
Inductive StCall :=
| st_success (body : string)
| st_error (body : string)
| st_warning (body : string)
| st_info (body : string)
| st_balloons
| st_spinner (text : string).

Inductive Event :=
| Kit (c : KitCall)
| Twilio (c : TwilioCall)
| St (c : StCall)
| Now.

Definition is_channel_call (ev : Event) : bool :=
  match ev with
  | Kit _ | Twilio _ => true
  | St _ | Now => false
  end.

(** The channel operations found in a trace, in order. *)
Definition channel_calls (tr : list Event) : list Event :=
  List.filter is_channel_call tr.

(** The automation-driver calls found in a trace, in order. *)
Fixpoint kit_calls (tr : list Event) : list KitCall :=
  match tr with
  | [] => []
  | Kit c :: tr' => c :: kit_calls tr'
  | _ :: tr' => kit_calls tr'
  end.

(** The Streamlit output found in a trace, in order. *)
Fixpoint st_calls (tr : list Event) : list StCall :=
  match tr with
  | [] => []
  | St c :: tr' => c :: st_calls tr'
  | _ :: tr' => st_calls tr'
  end.

(** ** The monad: a trace of events and a possibly raised exception *)

Inductive Res (A : Type) :=
| Ret (a : A)
| Raise (e : PyExn).
Arguments Ret {A} a.
Arguments Raise {A} e.

Definition M (A : Type) : Type := list Event → Res A * list Event.

Definition ret {A} (a : A) : M A := λ tr, (Ret a, tr).

Definition raise {A} (e : PyExn) : M A := λ tr, (Raise e, tr).

Definition bind {A B} (m : M A) (k : A → M B) : M B :=
  λ tr, match m tr with
        | (Ret a, tr') => k a tr'
        | (Raise e, tr') => (Raise e, tr')
        end.

(** [try: m  except Exception as e: h e] *)
Definition try_except {A} (m : M A) (h : PyExn → M A) : M A :=
  λ tr, match m tr with
        | (Ret a, tr') => (Ret a, tr')
        | (Raise e, tr') => h e tr'
        end.

Definition emit (ev : Event) : M unit := λ tr, (Ret tt, tr ++ [ev]).

(** A Python value lifted into the monad: returned, or raised. *)
Definition lift {A} (r : Res A) : M A := λ tr, (r, tr).

Notation "x <- m ;; k" := (bind m (λ x, k))
  (at level 100, m at next level, right associativity).
Notation "m ;;; k" := (bind m (λ _, k))
  (at level 100, right associativity).

(** ** datetime *)

(** [datetime.datetime], naive.  The calendar date is held as its proleptic
    Gregorian ordinal ([toordinal()]: 1 is 0001-01-01), the number
    [datetime.__add__] itself computes with. *)
Record datetime := mk_datetime {
  ordinal : Z;
  hour : Z;
  minute : Z;
  second : Z;
  microsecond : Z
}.

(** [datetime.timedelta], normalised: 0 <= seconds < 86400 and
    0 <= microseconds < 1000000. *)
Record timedelta := mk_timedelta {
  days : Z;
  seconds : Z;
  microseconds : Z
}.

(** [date.max.toordinal()], the ordinal of 9999-12-31. *)
Definition MAXORDINAL : Z := 3652059.

(** [datetime.timedelta(minutes=v)].  An [int] (or [bool], a subclass of
    [int]) gives [60 * v] seconds, normalised with floor division; the day
    count is limited to 999999999 in magnitude. *)
Definition timedelta_minutes (v : PyVal) : Res timedelta :=
  match v with
  | VStr _ => Raise (TypeError "unsupported type for timedelta minutes component: str")
  | VBool _ | VInt _ =>
      let n := match v with VInt n => n | VBool true => 1 | _ => 0 end in
      let d := (n * 60) `div` 86400 in
      let s := (n * 60) `mod` 86400 in
      if 999999999 <? Z.abs d
      then Raise (OverflowError ("days=" +:+ pretty d +:+ "; must have magnitude <= 999999999"))
      else Ret (mk_timedelta d s 0)
  end.

(** [dt + td]: the fields are summed as days, seconds and microseconds,
    the carries are propagated with floor division, and a day outside
    1..MAXORDINAL raises [OverflowError]. *)
Definition datetime_add (dt : datetime) (td : timedelta) : Res datetime :=
  let us := microsecond dt + microseconds td in
  let s := hour dt * 3600 + minute dt * 60 + second dt + seconds td + us `div` 1000000 in
  let d := ordinal dt + days td + s `div` 86400 in
  let s' := s `mod` 86400 in
  if (0 <? d) && (d <=? MAXORDINAL)
  then Ret (mk_datetime d (s' `div` 3600) ((s' `mod` 3600) `div` 60)
              ((s' `mod` 3600) `mod` 60) (us `mod` 1000000))
  else Raise (OverflowError "date value out of range").

(** The fields of a [datetime] object are always in these ranges. *)
Definition valid_datetime (dt : datetime) : Prop :=
  1 ≤ ordinal dt ≤ MAXORDINAL ∧ 0 ≤ hour dt < 24 ∧ 0 ≤ minute dt < 60 ∧
  0 ≤ second dt < 60 ∧ 0 ≤ microsecond dt < 1000000.

(** Position on the time line: microseconds since 0000-12-31 00:00. *)
Definition timeline (dt : datetime) : Z :=
  (((ordinal dt * 24 + hour dt) * 60 + minute dt) * 60 + second dt) * 1000000
  + microsecond dt.

(** [datetime.max], 9999-12-31 23:59:59.999999. *)
Definition datetime_max : datetime := mk_datetime MAXORDINAL 23 59 59 999999.

(** [datetime.min], 0001-01-01 00:00. *)
Definition datetime_min : datetime := mk_datetime 1 0 0 0 0.

(** ** The outside world *)

(** What the collaborators answer.  [None] from a call that returns nothing
    means it returned normally. *)
Record World := mk_World {
  clock : datetime;
  kit : KitCall → option PyExn;
  twilio_Client : string → string → option PyExn;
  twilio_create : string → string → string → string → string → Res string;
  secrets_get : string → string → Res string
}.

Section Program.

Variable w : World.

Definition kit_call (c : KitCall) : M unit :=
  emit (Kit c);;;
  match kit w c with
  | None => ret tt
  | Some e => raise e
  end.

Definition st_call (c : StCall) : M unit := emit (St c).

(** [datetime.datetime.now()] *)
Definition datetime_now : M datetime := emit Now;;; ret (clock w).

(** [d[key]] on a dict *)
Definition getitem (d : gmap string PyVal) (key : string) : M PyVal :=
  match d !! key with
  | Some v => ret v
  | None => raise (KeyError ("'" +:+ key +:+ "'"))
  end.

(** ** Backend functions *)

Definition send_pywhatkit_message (phone_no message : string)
    (schedule_time : gmap string PyVal) : M unit :=
  instant <- getitem schedule_time "instant";;
  if truthy instant then
    kit_call (sendwhatmsg_instantly phone_no message 15 true)
  else
    now <- datetime_now;;
    delay <- getitem schedule_time "delay";;
    td <- lift (timedelta_minutes delay);;
    send_time <- lift (datetime_add now td);;
    kit_call (sendwhatmsg phone_no message (hour send_time) (minute send_time)).

(** The two [except] clauses of [send_twilio_message]. *)
Definition twilio_except (e : PyExn) : bool * string :=
  match e with
  | TwilioRestException msg _ => (false, "Twilio Error: " +:+ msg)
  | _ => (false, "An unexpected error occurred: " +:+ str e)
  end.

Definition send_twilio_message (sid token from_num to_num message : string)
    : M (bool * string) :=
  try_except
    (emit (Twilio (Client sid token));;;
     lift (match twilio_Client w sid token with
           | None => Ret tt
           | Some e => Raise e
           end);;;
     let formatted_to_num := "whatsapp:" +:+ to_num in
     emit (Twilio (messages_create message from_num formatted_to_num));;;
     msg_sid <- lift (twilio_create w sid token message from_num formatted_to_num);;
     ret (true, "Message sent successfully! SID: " +:+ msg_sid))
    (λ e, ret (twilio_except e)).

(** ** The Streamlit script ([run_app]) *)

(** [st.text_input] and [st.text_area] return what the user typed, or the
    widget's initial value while the field is left as rendered. *)
Definition text_input (typed : option string) (value : string) : string :=
  default value typed.

(** The two options of the [st.radio] widget. *)
Inductive SendOption := Send_Instantly | Schedule_for_Later.

Definition radio_label (o : SendOption) : string :=
  match o with
  | Send_Instantly => "Send Instantly"
  | Schedule_for_Later => "Schedule for Later"
  end.

(** Widget state of the form [whatsapp_web_form]. *)
Record WebForm := mk_WebForm {
  phone_typed : option string;
  message_typed : option string;
  send_option : SendOption;
  number_input : Z;      (* the delay widget, min_value=1, max_value=60 *)
  submit_button : bool
}.

Definition phone_number (f : WebForm) : string := text_input (phone_typed f) "+91".
Definition message (f : WebForm) : string := text_input (message_typed f) "".

Definition delay_minutes (f : WebForm) : Z :=
  if String.eqb (radio_label (send_option f)) "Schedule for Later"
  then number_input f
  else 0.

(** The dict built at line 83. *)
Definition schedule (f : WebForm) : gmap string PyVal :=
  <["delay" := VInt (delay_minutes f)]>
    (<["instant" := VBool (String.eqb (radio_label (send_option f)) "Send Instantly")]> ∅).

(** Tab 1: what runs after the form [whatsapp_web_form] is rendered. *)
Definition whatsapp_web_form (f : WebForm) : M unit :=
  if submit_button f then
    if str_truthy (phone_number f) && str_truthy (message f) then
      st_call (st_spinner "Preparing to send message...");;;
      try_except
        (send_pywhatkit_message (phone_number f) (message f) (schedule f);;;
         st_call (st_success "✅ WhatsApp Web has been opened to send your message!");;;
         st_call st_balloons)
        (λ e, st_call (st_error ("❌ Error: " +:+ str e)))
    else
      st_call (st_warning "⚠️ Please fill in both phone number and message.")
  else ret tt.

(** Tab 2: the default credentials read from [st.secrets]. *)
Definition load_secrets : M (string * string * string) :=
  try_except
    (default_sid <- lift (secrets_get w "TWILIO_ACCOUNT_SID" "");;
     default_token <- lift (secrets_get w "TWILIO_AUTH_TOKEN" "");;
     default_from_num <- lift (secrets_get w "TWILIO_WHATSAPP_NUMBER" "");;
     ret (default_sid, default_token, default_from_num))
    (λ e,
       match e with
       | FileNotFoundError _ =>
           st_call (st_info "Create a `.streamlit/secrets.toml` file to pre-fill your credentials.");;;
           ret ("", "", "")%string
       | _ => raise e
       end).

(** Widget state of the form [twilio_form]. *)
Record TwilioForm := mk_TwilioForm {
  sid_typed : option string;
  token_typed : option string;
  from_typed : option string;
  to_typed : option string;
  api_message_typed : option string;
  submit_api_button : bool
}.

(** The five values the form [twilio_form] yields; the first three are
    pre-filled with the defaults. *)
Definition account_sid (defaults : string * string * string) (f : TwilioForm) : string :=
  text_input (sid_typed f) defaults.1.1.
Definition auth_token (defaults : string * string * string) (f : TwilioForm) : string :=
  text_input (token_typed f) defaults.1.2.
Definition from_number (defaults : string * string * string) (f : TwilioForm) : string :=
  text_input (from_typed f) defaults.2.
Definition to_number (f : TwilioForm) : string := text_input (to_typed f) "+91".
Definition api_message (f : TwilioForm) : string := text_input (api_message_typed f) "".

(** Tab 2: what runs after the form [twilio_form] is rendered. *)
Definition twilio_form (defaults : string * string * string) (f : TwilioForm) : M unit :=
  if submit_api_button f then
    if forallb str_truthy [account_sid defaults f; auth_token defaults f;
                           from_number defaults f; to_number f; api_message f] then
      st_call (st_spinner "Sending message via Twilio...");;;
      r <- send_twilio_message (account_sid defaults f) (auth_token defaults f)
             (from_number defaults f) (to_number f) (api_message f);;
      let '(success, response_message) := r in
      if success : bool
      then st_call (st_success ("✅ " +:+ response_message))
      else st_call (st_error ("❌ " +:+ response_message))
    else
      st_call (st_warning "⚠️ Please fill in all required fields.")
  else ret tt.

Definition run_app (f1 : WebForm) (f2 : TwilioForm) : M unit :=
  whatsapp_web_form f1;;;
  defaults <- load_secrets;;
  twilio_form defaults f2.

End Program.

(** ** Test doubles *)

(** A world whose collaborators all succeed: the clock shows [now], the
    provider answers with the message identifier [id], and the secrets
    store holds no key. *)
Definition succeeding (now : datetime) (id : string) : World :=
  mk_World now (λ _, None) (λ _ _, None) (λ _ _ _ _ _, Ret id) (λ _ default, Ret default).

(** A world in which every automation-driver call raises [e]. *)
Definition kit_raising (now : datetime) (e : PyExn) : World :=
  mk_World now (λ _, Some e) (λ _ _, None) (λ _ _ _ _ _, Ret "") (λ _ default, Ret default).

(** A world in which [client.messages.create] raises [e]. *)
Definition create_raising (e : PyExn) : World :=
  mk_World datetime_min (λ _, None) (λ _ _, None) (λ _ _ _ _ _, Raise e)
    (λ _ default, Ret default).

(** [st.secrets.get(key, default)] over a concrete store: without a
    secrets file every access raises [FileNotFoundError]; with one, a key
    that is not in it yields [default]. *)
Definition st_secrets_get (store : option (gmap string string)) (text : string)
    (key default : string) : Res string :=
  match store with
  | None => Raise (FileNotFoundError text)
  | Some m => Ret (from_option id default (m !! key))
  end.

(** A world whose secrets come from a concrete store. *)
Definition with_store (store : option (gmap string string)) (text : string) : World :=
  mk_World datetime_min (λ _, None) (λ _ _, None) (λ _ _ _ _ _, Ret "")
    (st_secrets_get store text).

(** A world without a secrets file: every lookup raises. *)
Definition no_secrets (text : string) : World :=
  mk_World datetime_min (λ _, None) (λ _ _, None) (λ _ _ _ _ _, Ret "")
    (λ _ _, Raise (FileNotFoundError text)).

(** 2024-01-01 12:00:00 and 2024-01-01 23:58:00. *)
Definition noon : datetime := mk_datetime 738886 12 0 0 0.
Definition late : datetime := mk_datetime 738886 23 58 0 0.

(** ** Further projections of a trace *)

(** The Twilio calls found in a trace, in order. *)
Fixpoint twilio_calls (tr : list Event) : list TwilioCall :=
  match tr with
  | [] => []
  | Twilio c :: tr' => c :: twilio_calls tr'
  | _ :: tr' => twilio_calls tr'
  end.

(** How many times the clock was read. *)
Fixpoint clock_reads (tr : list Event) : nat :=
  match tr with
  | [] => O
  | Now :: tr' => S (clock_reads tr')
  | _ :: tr' => clock_reads tr'
  end.



(** The last minute of [datetime.max]'s day: 9999-12-31 23:59:00. *)
Definition last_minute : datetime := mk_datetime MAXORDINAL 23 59 0 0.

(** * Properties *)

(** ** Traces *)

Lemma channel_calls_app (tr1 tr2 : list Event) :
  channel_calls (tr1 ++ tr2) = channel_calls tr1 ++ channel_calls tr2.
Proof. unfold channel_calls. apply List.filter_app. Qed.

Lemma kit_calls_app (tr1 tr2 : list Event) :
  kit_calls (tr1 ++ tr2) = kit_calls tr1 ++ kit_calls tr2.
Proof.
  induction tr1 as [|ev tr1 IH]; [done|].
  destruct ev; simpl; rewrite IH; done.
Qed.

Lemma st_calls_app (tr1 tr2 : list Event) :
  st_calls (tr1 ++ tr2) = st_calls tr1 ++ st_calls tr2.
Proof.
  induction tr1 as [|ev tr1 IH]; [done|].
  destruct ev; simpl; rewrite IH; done.
Qed.

(** ** datetime arithmetic *)

(** Adding [d] minutes, for any integer [d], lands exactly [d] minutes
    further on the time line whenever that point lies between
    [datetime.min] and [datetime.max]. *)
Lemma datetime_add_minutes (now : datetime) (d : Z) :
  valid_datetime now →
  timeline datetime_min ≤ timeline now + d * 60000000 ≤ timeline datetime_max →
  ∃ td target,
    timedelta_minutes (VInt d) = Ret td ∧
    datetime_add now td = Ret target ∧
    valid_datetime target ∧
    timeline target = timeline now + d * 60000000 ∧
    hour target = ((hour now * 60 + minute now + d) `div` 60) `mod` 24 ∧
    minute target = (minute now + d) `mod` 60 ∧
    ordinal target = ordinal now + (hour now * 60 + minute now + d) `div` 1440.
Proof.
  destruct now as [o h m s us].
  unfold valid_datetime, timeline, datetime_min, datetime_max, MAXORDINAL; simpl.
  intros (Ho & Hh & Hm & Hs & Hus) [Hlo Hhi].
  unfold timedelta_minutes.
  assert (Hd : (999999999 <? Z.abs ((d * 60) `div` 86400)) = false).
  { apply Z.ltb_ge. Z.div_mod_to_equations. lia. }
  rewrite Hd.
  eexists _, _. split; [reflexivity|].
  unfold datetime_add, MAXORDINAL; simpl.
  rewrite Z.add_0_r.
  assert (Hus' : us `div` 1000000 = 0) by (apply Z.div_small; lia).
  assert (Hus'' : us `mod` 1000000 = us) by (apply Z.mod_small; lia).
  rewrite Hus', Hus'', Z.add_0_r.
  set (S := h * 3600 + m * 60 + s + (d * 60) `mod` 86400).
  set (D := o + (d * 60) `div` 86400 + S `div` 86400).
  assert (HD : (0 <? D) && (D <=? 3652059) = true).
  { apply andb_true_iff. rewrite Z.ltb_lt, Z.leb_le.
    subst D S. Z.div_mod_to_equations. lia. }
  rewrite HD.
  split; [reflexivity|]. simpl.
  apply andb_true_iff in HD. rewrite Z.ltb_lt, Z.leb_le in HD.
  subst D S.
  repeat split; Z.div_mod_to_equations; lia.
Qed.

(** Past the last representable instant the addition raises. *)
Lemma datetime_add_overflow :
  timedelta_minutes (VInt 5) = Ret (mk_timedelta 0 300 0) ∧
  datetime_add (mk_datetime MAXORDINAL 23 58 0 0) (mk_timedelta 0 300 0)
  = Raise (OverflowError "date value out of range").
Proof. split; reflexivity. Qed.

(** ** The browser channel *)

(** The delayed branch of [send_pywhatkit_message]: the clock is read, the
    target computed, and the driver called with its hour and minute. *)
Lemma send_pywhatkit_message_delayed (w : World) (phone_no msg : string)
    (schedule_time : gmap string PyVal) (v : PyVal) (d : Z) (tr : list Event) :
  schedule_time !! "instant" = Some v → truthy v = false →
  schedule_time !! "delay" = Some (VInt d) →
  valid_datetime (clock w) →
  timeline datetime_min ≤ timeline (clock w) + d * 60000000 ≤ timeline datetime_max →
  ∃ target,
    valid_datetime target ∧
    timeline target = timeline (clock w) + d * 60000000 ∧
    hour target = ((hour (clock w) * 60 + minute (clock w) + d) `div` 60) `mod` 24 ∧
    minute target = (minute (clock w) + d) `mod` 60 ∧
    ordinal target = ordinal (clock w) + (hour (clock w) * 60 + minute (clock w) + d) `div` 1440 ∧
    send_pywhatkit_message w phone_no msg schedule_time tr
    = (match kit w (sendwhatmsg phone_no msg (hour target) (minute target)) with
       | None => Ret tt
       | Some e => Raise e
       end,
       tr ++ [Now; Kit (sendwhatmsg phone_no msg (hour target) (minute target))]).
Proof.
  intros Hi Hv Hd Hnow Hrange.
  destruct (datetime_add_minutes (clock w) d Hnow Hrange)
    as (td & target & Htd & Hadd & Hvalid & Hline & Hh & Hm & Ho).
  exists target. repeat (split; [assumption|]).
  unfold send_pywhatkit_message, getitem, datetime_now, kit_call, bind, lift, emit, ret, raise.
  rewrite Hi, Hv, Hd, Htd, Hadd. rewrite <- !app_assoc. simpl.
  destruct (kit w _); reflexivity.
Qed.

(** The instant branch: one call, with the fixed wait time and the
    tab-close flag. *)
Lemma send_pywhatkit_message_instant (w : World) (phone_no msg : string)
    (schedule_time : gmap string PyVal) (v : PyVal) (tr : list Event) :
  schedule_time !! "instant" = Some v → truthy v = true →
  send_pywhatkit_message w phone_no msg schedule_time tr
  = (match kit w (sendwhatmsg_instantly phone_no msg 15 true) with
     | None => Ret tt
     | Some e => Raise e
     end,
     tr ++ [Kit (sendwhatmsg_instantly phone_no msg 15 true)]).
Proof.
  intros Hi Hv.
  unfold send_pywhatkit_message, getitem, kit_call, bind, emit, ret, raise.
  rewrite Hi, Hv. destruct (kit w _); reflexivity.
Qed.

(** C2: for a delay [d] in 1..60 the delayed branch reads the clock when it
    is called, and the target it computes is the clock time plus [d]
    minutes on the time line (hour, minute and day roll over); the driver
    receives the target's hour and minute.  The clock time is any datetime
    whose target does not exceed [datetime.max]. *)
Theorem delayed_target_is_now_plus_delay (w : World) (phone_no msg : string)
    (schedule_time : gmap string PyVal) (v : PyVal) (d : Z) (tr : list Event) :
  schedule_time !! "instant" = Some v → truthy v = false →
  schedule_time !! "delay" = Some (VInt d) → 1 ≤ d ≤ 60 →
  valid_datetime (clock w) →
  timeline (clock w) + d * 60000000 ≤ timeline datetime_max →
  ∃ target,
    valid_datetime target ∧
    timeline target = timeline (clock w) + d * 60000000 ∧
    hour target = ((hour (clock w) * 60 + minute (clock w) + d) `div` 60) `mod` 24 ∧
    minute target = (minute (clock w) + d) `mod` 60 ∧
    ordinal target = ordinal (clock w) + (hour (clock w) * 60 + minute (clock w) + d) `div` 1440 ∧
    send_pywhatkit_message w phone_no msg schedule_time tr
    = (match kit w (sendwhatmsg phone_no msg (hour target) (minute target)) with
       | None => Ret tt
       | Some e => Raise e
       end,
       tr ++ [Now; Kit (sendwhatmsg phone_no msg (hour target) (minute target))]).
Proof.
  intros Hi Hv Hd Hrange Hnow Hmax.
  apply (send_pywhatkit_message_delayed w phone_no msg schedule_time v d tr); try assumption.
  split; [|assumption].
  destruct Hnow as (Ho & Hh & Hm & Hs & Hus).
  unfold timeline, datetime_min; simpl. lia.
Qed.

Lemma delayed_target_is_now_plus_delay_witness :
  ∃ target,
    valid_datetime target ∧
    timeline target = timeline late + 5 * 60000000 ∧
    hour target = ((23 * 60 + 58 + 5) `div` 60) `mod` 24 ∧
    minute target = (58 + 5) `mod` 60 ∧
    ordinal target = 738886 + (23 * 60 + 58 + 5) `div` 1440 ∧
    send_pywhatkit_message (succeeding late "") "+15551234567" "hi"
      (<["delay" := VInt 5]> {["instant" := VBool false]}) []
    = (Ret tt, [Now; Kit (sendwhatmsg "+15551234567" "hi" (hour target) (minute target))]).
Proof.
  apply (delayed_target_is_now_plus_delay (succeeding late "") "+15551234567" "hi"
           (<["delay" := VInt 5]> {["instant" := VBool false]}) (VBool false) 5 []).
  - reflexivity.
  - reflexivity.
  - reflexivity.
  - lia.
  - unfold valid_datetime, MAXORDINAL; simpl; lia.
  - vm_compute; discriminate.
Defined.

(** 23:58 plus 5 minutes is 00:03 of the next day. *)
Example rollover_2358_plus_5 :
  send_pywhatkit_message (succeeding late "") "+15551234567" "hi"
    (<["delay" := VInt 5]> {["instant" := VBool false]}) []
  = (Ret tt, [Now; Kit (sendwhatmsg "+15551234567" "hi" 0 3)]) ∧
  datetime_add late (mk_timedelta 0 300 0) = Ret (mk_datetime 738887 0 3 0 0).
Proof. split; reflexivity. Qed.

(** C7, as stated, fails: called directly with a delay of -5 or 0 in
    delayed mode, [send_pywhatkit_message] raises nothing; it computes a
    target and calls the driver with it. *)
Lemma nonpositive_delay_not_rejected :
  send_pywhatkit_message (succeeding noon "") "+15551234567" "hi"
    (<["delay" := VInt (-5)]> {["instant" := VBool false]}) []
  = (Ret tt, [Now; Kit (sendwhatmsg "+15551234567" "hi" 11 55)]) ∧
  send_pywhatkit_message (succeeding noon "") "+15551234567" "hi"
    (<["delay" := VInt 0]> {["instant" := VBool false]}) []
  = (Ret tt, [Now; Kit (sendwhatmsg "+15551234567" "hi" 12 0)]) ∧
  ¬ (∀ d, d ≤ 0 →
       ∃ e tr', send_pywhatkit_message (succeeding noon "") "+15551234567" "hi"
                  (<["delay" := VInt d]> {["instant" := VBool false]}) []
                = (Raise e, tr')).
Proof.
  split; [reflexivity|]. split; [reflexivity|].
  intros H. destruct (H 0 ltac:(lia)) as (e & tr' & Heq).
  vm_compute in Heq. discriminate Heq.
Qed.

(** C7, amended: a delay [d ≤ 0] is not rejected.  The delayed branch
    computes the target [d] minutes from the clock time, which is then not
    after it, and calls the driver with the target's hour and minute; no
    range check on the delay is made here. *)
Theorem nonpositive_delay_is_scheduled (w : World) (phone_no msg : string)
    (schedule_time : gmap string PyVal) (v : PyVal) (d : Z) (tr : list Event) :
  schedule_time !! "instant" = Some v → truthy v = false →
  schedule_time !! "delay" = Some (VInt d) → d ≤ 0 →
  valid_datetime (clock w) →
  timeline datetime_min ≤ timeline (clock w) + d * 60000000 →
  ∃ target,
    valid_datetime target ∧
    timeline target = timeline (clock w) + d * 60000000 ∧
    timeline target ≤ timeline (clock w) ∧
    send_pywhatkit_message w phone_no msg schedule_time tr
    = (match kit w (sendwhatmsg phone_no msg (hour target) (minute target)) with
       | None => Ret tt
       | Some e => Raise e
       end,
       tr ++ [Now; Kit (sendwhatmsg phone_no msg (hour target) (minute target))]).
Proof.
  intros Hi Hv Hd Hneg Hnow Hmin.
  destruct (send_pywhatkit_message_delayed w phone_no msg schedule_time v d tr)
    as (target & Hvalid & Hline & _ & _ & _ & Hrun); try assumption.
  { split; [assumption|].
    destruct Hnow as (Ho & Hh & Hm & Hs & Hus).
    unfold timeline, datetime_max, MAXORDINAL in *; simpl. lia. }
  exists target. repeat split; try assumption; try apply Hvalid. lia.
Qed.

Lemma nonpositive_delay_is_scheduled_witness :
  ∃ target,
    valid_datetime target ∧
    timeline target = timeline noon + (-5) * 60000000 ∧
    timeline target ≤ timeline noon ∧
    send_pywhatkit_message (succeeding noon "") "+15551234567" "hi"
      (<["delay" := VInt (-5)]> {["instant" := VBool false]}) []
    = (Ret tt, [Now; Kit (sendwhatmsg "+15551234567" "hi" (hour target) (minute target))]).
Proof.
  apply (nonpositive_delay_is_scheduled (succeeding noon "") "+15551234567" "hi"
           (<["delay" := VInt (-5)]> {["instant" := VBool false]}) (VBool false) (-5) []).
  - reflexivity.
  - reflexivity.
  - reflexivity.
  - lia.
  - unfold valid_datetime, MAXORDINAL; simpl; lia.
  - vm_compute; discriminate.
Defined.

(** C10: in instant mode the delay entry of the schedule is never read.
    Whatever two values it holds, the outcome and the whole trace are the
    same, and the driver receives the single call
    [sendwhatmsg_instantly(phone_no, message, 15, True)]. *)
Theorem instant_send_ignores_delay (w : World) (phone_no msg : string)
    (schedule_time : gmap string PyVal) (v d1 d2 : PyVal) (tr : list Event) :
  schedule_time !! "instant" = Some v → truthy v = true →
  send_pywhatkit_message w phone_no msg (<["delay" := d1]> schedule_time) tr
  = send_pywhatkit_message w phone_no msg (<["delay" := d2]> schedule_time) tr ∧
  kit_calls (snd (send_pywhatkit_message w phone_no msg (<["delay" := d1]> schedule_time) tr))
  = kit_calls tr ++ [sendwhatmsg_instantly phone_no msg 15 true] ∧
  send_pywhatkit_message w phone_no msg (delete "delay" schedule_time) tr
  = send_pywhatkit_message w phone_no msg (<["delay" := d1]> schedule_time) tr.
Proof.
  intros Hi Hv.
  assert (H1 : ∀ x, (<["delay" := x]> schedule_time) !! "instant" = Some v).
  { intros x. rewrite lookup_insert_ne; [exact Hi | discriminate]. }
  assert (H2 : delete "delay" schedule_time !! "instant" = Some v).
  { rewrite lookup_delete_ne; [exact Hi | discriminate]. }
  rewrite !(send_pywhatkit_message_instant w phone_no msg _ v tr) by (apply H1 || assumption).
  repeat split; [].
  simpl. rewrite kit_calls_app. reflexivity.
Qed.

Lemma instant_send_ignores_delay_witness :
  send_pywhatkit_message (succeeding noon "") "+15551234567" "hi"
    (<["delay" := VInt 5]> {["instant" := VBool true]}) []
  = send_pywhatkit_message (succeeding noon "") "+15551234567" "hi"
    (<["delay" := VInt 60]> {["instant" := VBool true]}) [] ∧
  kit_calls (snd (send_pywhatkit_message (succeeding noon "") "+15551234567" "hi"
    (<["delay" := VInt 5]> {["instant" := VBool true]}) []))
  = kit_calls [] ++ [sendwhatmsg_instantly "+15551234567" "hi" 15 true] ∧
  send_pywhatkit_message (succeeding noon "") "+15551234567" "hi"
    (delete "delay" {["instant" := VBool true]}) []
  = send_pywhatkit_message (succeeding noon "") "+15551234567" "hi"
    (<["delay" := VInt 5]> {["instant" := VBool true]}) [].
Proof.
  apply (instant_send_ignores_delay (succeeding noon "") "+15551234567" "hi"
           {["instant" := VBool true]} (VBool true) (VInt 5) (VInt 60) []).
  - reflexivity.
  - reflexivity.
Defined.

(** ** The Twilio channel *)

(** What [send_twilio_message] does, by the answers of the provider. *)
Lemma send_twilio_message_run (w : World) (sid token from_num to_num msg : string)
    (tr : list Event) :
  send_twilio_message w sid token from_num to_num msg tr
  = match twilio_Client w sid token with
    | Some e => (Ret (twilio_except e), tr ++ [Twilio (Client sid token)])
    | None =>
        (match twilio_create w sid token msg from_num ("whatsapp:" +:+ to_num) with
         | Ret msg_sid => Ret (true, "Message sent successfully! SID: " +:+ msg_sid)
         | Raise e => Ret (twilio_except e)
         end,
         tr ++ [Twilio (Client sid token);
                Twilio (messages_create msg from_num ("whatsapp:" +:+ to_num))])
    end.
Proof.
  unfold send_twilio_message, try_except, bind, emit, lift, ret.
  destruct (twilio_Client w sid token) as [e|]; [reflexivity|].
  rewrite <- app_assoc. simpl.
  destruct (twilio_create w sid token msg from_num _); reflexivity.
Qed.

(** C3: every message [send_twilio_message] submits goes to the address
    ["whatsapp:"] followed by the recipient number as given, from the sender
    address as given; one message is submitted once the client is built. *)
Theorem recipient_is_prefixed_sender_unchanged (w : World)
    (sid token from_num to_num msg : string) (tr : list Event) :
  snd (send_twilio_message w sid token from_num to_num msg tr)
  = tr ++ Twilio (Client sid token)
       :: match twilio_Client w sid token with
          | None => [Twilio (messages_create msg from_num ("whatsapp:" +:+ to_num))]
          | Some _ => []
          end.
Proof.
  rewrite send_twilio_message_run.
  destruct (twilio_Client w sid token); reflexivity.
Qed.

Example recipient_15551234567 :
  snd (send_twilio_message (succeeding noon "ABC123") "AC1" "tok"
         "whatsapp:+14155238886" "+15551234567" "hi" [])
  = [Twilio (Client "AC1" "tok");
     Twilio (messages_create "hi" "whatsapp:+14155238886" "whatsapp:+15551234567")].
Proof. reflexivity. Qed.

(** C4, as stated, fails: for the provider rejection "Invalid From Number"
    the text returned is "Twilio Error: Invalid From Number", not the
    provider's message alone. *)
Lemma provider_message_is_prefixed :
  fst (send_twilio_message
         (create_raising (TwilioRestException "Invalid From Number"
                            "HTTP 400 error: Unable to create record: Invalid From Number"))
         "AC1" "tok" "whatsapp:+14155238886" "+15551234567" "hi" [])
  = Ret (false, "Twilio Error: Invalid From Number") ∧
  "Twilio Error: Invalid From Number" ≠ "Invalid From Number".
Proof. split; [reflexivity | discriminate]. Qed.

(** C4, amended: for every [TwilioRestException] raised by the provider,
    [send_twilio_message] returns [False] with the text ["Twilio Error: "]
    followed by the exception's [msg], unchanged. *)
Theorem provider_rejection_text (w : World) (sid token from_num to_num msg : string)
    (provider_msg text : string) (tr : list Event) :
  twilio_Client w sid token = Some (TwilioRestException provider_msg text) ∨
  (twilio_Client w sid token = None ∧
   twilio_create w sid token msg from_num ("whatsapp:" +:+ to_num)
   = Raise (TwilioRestException provider_msg text)) →
  fst (send_twilio_message w sid token from_num to_num msg tr)
  = Ret (false, "Twilio Error: " +:+ provider_msg).
Proof.
  intros [Hc | [Hc Hm]]; rewrite send_twilio_message_run, Hc; [reflexivity|].
  rewrite Hm. reflexivity.
Qed.

Lemma provider_rejection_text_witness :
  fst (send_twilio_message
         (create_raising (TwilioRestException "Invalid From Number"
                            "HTTP 400 error: Unable to create record: Invalid From Number"))
         "AC1" "tok" "whatsapp:+14155238886" "+15551234567" "hi" [])
  = Ret (false, "Twilio Error: " +:+ "Invalid From Number").
Proof.
  apply (provider_rejection_text
           (create_raising (TwilioRestException "Invalid From Number"
                              "HTTP 400 error: Unable to create record: Invalid From Number"))
           "AC1" "tok" "whatsapp:+14155238886" "+15551234567" "hi"
           "Invalid From Number"
           "HTTP 400 error: Unable to create record: Invalid From Number" []).
  right. split; reflexivity.
Defined.

(** C5, as stated, fails: when the provider answers with the identifier
    "ABC123" the text returned is "Message sent successfully! SID: ABC123",
    not the identifier alone. *)
Lemma confirmation_is_a_sentence :
  fst (send_twilio_message (succeeding noon "ABC123") "AC1" "tok"
         "whatsapp:+14155238886" "+15551234567" "hi" [])
  = Ret (true, "Message sent successfully! SID: ABC123") ∧
  "Message sent successfully! SID: ABC123" ≠ "ABC123".
Proof. split; [reflexivity | discriminate]. Qed.

(** C5, amended: on every successful send, [send_twilio_message] returns
    [True] with the text ["Message sent successfully! SID: "] followed by
    the provider's message identifier, unchanged. *)
Theorem confirmation_text (w : World) (sid token from_num to_num msg : string)
    (msg_sid : string) (tr : list Event) :
  twilio_Client w sid token = None →
  twilio_create w sid token msg from_num ("whatsapp:" +:+ to_num) = Ret msg_sid →
  fst (send_twilio_message w sid token from_num to_num msg tr)
  = Ret (true, "Message sent successfully! SID: " +:+ msg_sid).
Proof.
  intros Hc Hm. rewrite send_twilio_message_run, Hc, Hm. reflexivity.
Qed.

Lemma confirmation_text_witness :
  fst (send_twilio_message (succeeding noon "ABC123") "AC1" "tok"
         "whatsapp:+14155238886" "+15551234567" "hi" [])
  = Ret (true, "Message sent successfully! SID: " +:+ "ABC123").
Proof.
  apply (confirmation_text (succeeding noon "ABC123") "AC1" "tok"
           "whatsapp:+14155238886" "+15551234567" "hi" "ABC123" []).
  - reflexivity.
  - reflexivity.
Defined.

(** ** The submit handlers *)

Lemma str_truthy_false (s : string) : str_truthy s = false ↔ s = "".
Proof.
  unfold str_truthy. rewrite negb_false_iff. apply String.eqb_eq.
Qed.

Lemma str_truthy_true (s : string) : str_truthy s = true ↔ s ≠ "".
Proof.
  unfold str_truthy. rewrite negb_true_iff. apply String.eqb_neq.
Qed.

Lemma schedule_instant (f : WebForm) :
  schedule f !! "instant"
  = Some (VBool (match send_option f with Send_Instantly => true | _ => false end)).
Proof. unfold schedule. destruct (send_option f); reflexivity. Qed.

Lemma schedule_delay (f : WebForm) :
  schedule f !! "delay"
  = Some (VInt (match send_option f with Send_Instantly => 0 | _ => number_input f end)).
Proof. unfold schedule, delay_minutes. destruct (send_option f); reflexivity. Qed.

(** A submitted, filled-in browser form: the spinner, the send, and then
    either the success notice with balloons or the error notice. *)
Lemma whatsapp_web_form_run (w : World) (f : WebForm) (tr : list Event) :
  submit_button f = true → phone_number f ≠ "" → message f ≠ "" →
  whatsapp_web_form w f tr
  = match send_pywhatkit_message w (phone_number f) (message f) (schedule f)
            (tr ++ [St (st_spinner "Preparing to send message...")]) with
    | (Ret _, tr') =>
        (Ret tt, tr' ++ [St (st_success "✅ WhatsApp Web has been opened to send your message!");
                         St st_balloons])
    | (Raise e, tr') => (Ret tt, tr' ++ [St (st_error ("❌ Error: " +:+ str e))])
    end.
Proof.
  intros Hs Hp Hm. unfold whatsapp_web_form.
  apply str_truthy_true in Hp, Hm. rewrite Hs, Hp, Hm. simpl.
  unfold try_except, bind, st_call, emit.
  destruct (send_pywhatkit_message _ _ _ _ _) as [[[]|e] tr']; [|reflexivity].
  rewrite <- app_assoc. reflexivity.
Qed.

(** A submitted, filled-in Twilio form: the spinner, the send, and then the
    success or the error notice carrying the returned text. *)
Lemma twilio_form_run (w : World) (defaults : string * string * string)
    (f : TwilioForm) (tr : list Event) :
  submit_api_button f = true →
  forallb str_truthy [account_sid defaults f; auth_token defaults f;
                      from_number defaults f; to_number f; api_message f] = true →
  twilio_form w defaults f tr
  = match send_twilio_message w (account_sid defaults f) (auth_token defaults f)
            (from_number defaults f) (to_number f) (api_message f)
            (tr ++ [St (st_spinner "Sending message via Twilio...")]) with
    | (Ret (true, text), tr') => (Ret tt, tr' ++ [St (st_success ("✅ " +:+ text))])
    | (Ret (false, text), tr') => (Ret tt, tr' ++ [St (st_error ("❌ " +:+ text))])
    | (Raise e, tr') => (Raise e, tr')
    end.
Proof.
  intros Hs Hall. unfold twilio_form. rewrite Hs, Hall.
  unfold bind, st_call, emit.
  destruct (send_twilio_message _ _ _ _ _ _ _) as [[[[] text]|e] tr']; reflexivity.
Qed.

(** No exception leaves [send_twilio_message]. *)
Lemma send_twilio_message_returns (w : World) (sid token from_num to_num msg : string)
    (tr : list Event) :
  ∃ success text tr',
    send_twilio_message w sid token from_num to_num msg tr = (Ret (success, text), tr').
Proof.
  rewrite send_twilio_message_run.
  destruct (twilio_Client w sid token) as [e|].
  - destruct (twilio_except e) as [b t]. eauto.
  - destruct (twilio_create w sid token msg from_num _) as [id|e].
    + eauto.
    + destruct (twilio_except e) as [b t]. eauto.
Qed.

(** No exception leaves the browser handler. *)
Lemma whatsapp_web_form_returns (w : World) (f : WebForm) (tr : list Event) :
  ∃ tr', whatsapp_web_form w f tr = (Ret tt, tr').
Proof.
  destruct (submit_button f) eqn:Hs.
  - destruct (str_truthy (phone_number f)) eqn:Hp;
      [destruct (str_truthy (message f)) eqn:Hm|].
    + rewrite whatsapp_web_form_run by (assumption || by apply str_truthy_true).
      destruct (send_pywhatkit_message _ _ _ _ _) as [[[]|e] tr']; eauto.
    + unfold whatsapp_web_form. rewrite Hs, Hp, Hm. simpl. eexists. reflexivity.
    + unfold whatsapp_web_form. rewrite Hs, Hp. simpl. eexists. reflexivity.
  - unfold whatsapp_web_form. rewrite Hs. eexists. reflexivity.
Qed.

(** No exception leaves the Twilio handler. *)
Lemma twilio_form_returns (w : World) (defaults : string * string * string)
    (f : TwilioForm) (tr : list Event) :
  ∃ tr', twilio_form w defaults f tr = (Ret tt, tr').
Proof.
  destruct (submit_api_button f) eqn:Hs.
  - destruct (forallb str_truthy [account_sid defaults f; auth_token defaults f;
                from_number defaults f; to_number f; api_message f]) eqn:Hall.
    + rewrite twilio_form_run by assumption.
      destruct (send_twilio_message_returns w (account_sid defaults f)
                  (auth_token defaults f) (from_number defaults f) (to_number f)
                  (api_message f) (tr ++ [St (st_spinner "Sending message via Twilio...")]))
        as (b & text & tr' & Hrun).
      rewrite Hrun. destruct b; eauto.
    + unfold twilio_form. rewrite Hs, Hall. eexists. reflexivity.
  - unfold twilio_form. rewrite Hs. eexists. reflexivity.
Qed.

(** C1: a submitted form with an empty recipient number or an empty message
    body (for the Twilio form: with any of its five fields empty, the
    three credentials included) ends in the validation warning, and the
    trace gains no channel call: neither pywhatkit nor Twilio is invoked. *)
Theorem empty_fields_short_circuit (w : World) (tr : list Event) :
  (∀ f : WebForm,
     submit_button f = true →
     phone_number f = "" ∨ message f = "" →
     whatsapp_web_form w f tr
     = (Ret tt, tr ++ [St (st_warning "⚠️ Please fill in both phone number and message.")]) ∧
     channel_calls (snd (whatsapp_web_form w f tr)) = channel_calls tr) ∧
  (∀ (defaults : string * string * string) (f : TwilioForm),
     submit_api_button f = true →
     account_sid defaults f = "" ∨ auth_token defaults f = "" ∨
     from_number defaults f = "" ∨ to_number f = "" ∨ api_message f = "" →
     twilio_form w defaults f tr
     = (Ret tt, tr ++ [St (st_warning "⚠️ Please fill in all required fields.")]) ∧
     channel_calls (snd (twilio_form w defaults f tr)) = channel_calls tr).
Proof.
  split.
  - intros f Hs Hempty.
    assert (Hrun : whatsapp_web_form w f tr
              = (Ret tt, tr ++ [St (st_warning "⚠️ Please fill in both phone number and message.")])).
    { unfold whatsapp_web_form. rewrite Hs.
      destruct Hempty as [H | H]; apply str_truthy_false in H; rewrite H.
      - reflexivity.
      - rewrite andb_false_r. reflexivity. }
    split; [exact Hrun|].
    rewrite Hrun. simpl. rewrite channel_calls_app. simpl. apply app_nil_r.
  - intros defaults f Hs Hempty.
    assert (Hrun : twilio_form w defaults f tr
              = (Ret tt, tr ++ [St (st_warning "⚠️ Please fill in all required fields.")])).
    { unfold twilio_form. rewrite Hs.
      assert (Hall : forallb str_truthy [account_sid defaults f; auth_token defaults f;
                       from_number defaults f; to_number f; api_message f] = false).
      { simpl. destruct Hempty as [H | [H | [H | [H | H]]]];
          apply str_truthy_false in H; rewrite H;
          rewrite ?andb_false_r; reflexivity. }
      rewrite Hall. reflexivity. }
    split; [exact Hrun|].
    rewrite Hrun. simpl. rewrite channel_calls_app. simpl. apply app_nil_r.
Qed.

Lemma empty_fields_short_circuit_witness :
  (whatsapp_web_form (succeeding noon "ABC123")
     (mk_WebForm (Some "+15551234567") None Schedule_for_Later 5 true) []
   = (Ret tt, [] ++ [St (st_warning "⚠️ Please fill in both phone number and message.")]) ∧
   channel_calls (snd (whatsapp_web_form (succeeding noon "ABC123")
     (mk_WebForm (Some "+15551234567") None Schedule_for_Later 5 true) [])) = channel_calls []) ∧
  (twilio_form (succeeding noon "ABC123") ("AC1", "", "whatsapp:+14155238886")
     (mk_TwilioForm None None None (Some "+15551234567") (Some "hi") true) []
   = (Ret tt, [] ++ [St (st_warning "⚠️ Please fill in all required fields.")]) ∧
   channel_calls (snd (twilio_form (succeeding noon "ABC123")
     ("AC1", "", "whatsapp:+14155238886")
     (mk_TwilioForm None None None (Some "+15551234567") (Some "hi") true) [])) = channel_calls []).
Proof.
  destruct (empty_fields_short_circuit (succeeding noon "ABC123") []) as [Hweb Htwilio].
  split.
  - apply Hweb; [reflexivity | right; reflexivity].
  - apply Htwilio; [reflexivity | right; left; reflexivity].
Defined.

(** With every field filled in, the channel is invoked: the validation
    above is the only gate. *)
Lemma filled_forms_reach_the_channel :
  channel_calls (snd (whatsapp_web_form (succeeding noon "ABC123")
     (mk_WebForm (Some "+15551234567") (Some "hi") Send_Instantly 5 true) []))
  = [Kit (sendwhatmsg_instantly "+15551234567" "hi" 15 true)] ∧
  channel_calls (snd (twilio_form (succeeding noon "ABC123")
     ("AC1", "tok", "whatsapp:+14155238886")
     (mk_TwilioForm None None None (Some "+15551234567") (Some "hi") true) []))
  = [Twilio (Client "AC1" "tok");
     Twilio (messages_create "hi" "whatsapp:+14155238886" "whatsapp:+15551234567")].
Proof. split; reflexivity. Qed.

(** C8: when the browser send completes without raising, the handler shows
    the success notice, whose text is fixed and carries no token, and the
    balloons; the send itself returns no value.  No error or warning notice
    is shown. *)
Theorem browser_success_carries_no_token (w : World) (f : WebForm) (tr tr' : list Event) :
  submit_button f = true → phone_number f ≠ "" → message f ≠ "" →
  send_pywhatkit_message w (phone_number f) (message f) (schedule f)
    (tr ++ [St (st_spinner "Preparing to send message...")]) = (Ret tt, tr') →
  whatsapp_web_form w f tr
  = (Ret tt, tr' ++ [St (st_success "✅ WhatsApp Web has been opened to send your message!");
                     St st_balloons]) ∧
  st_calls (snd (whatsapp_web_form w f tr))
  = st_calls tr' ++ [st_success "✅ WhatsApp Web has been opened to send your message!";
                     st_balloons].
Proof.
  intros Hs Hp Hm Hsend.
  rewrite whatsapp_web_form_run by assumption. rewrite Hsend.
  split; [reflexivity|]. simpl. rewrite st_calls_app. reflexivity.
Qed.

Lemma browser_success_carries_no_token_witness :
  whatsapp_web_form (succeeding noon "")
    (mk_WebForm (Some "+15551234567") (Some "hi") Schedule_for_Later 5 true) []
  = (Ret tt,
     [St (st_spinner "Preparing to send message..."); Now;
      Kit (sendwhatmsg "+15551234567" "hi" 12 5)]
     ++ [St (st_success "✅ WhatsApp Web has been opened to send your message!");
         St st_balloons]) ∧
  st_calls (snd (whatsapp_web_form (succeeding noon "")
    (mk_WebForm (Some "+15551234567") (Some "hi") Schedule_for_Later 5 true) []))
  = st_calls [St (st_spinner "Preparing to send message..."); Now;
              Kit (sendwhatmsg "+15551234567" "hi" 12 5)]
    ++ [st_success "✅ WhatsApp Web has been opened to send your message!"; st_balloons].
Proof.
  apply (browser_success_carries_no_token (succeeding noon "")
           (mk_WebForm (Some "+15551234567") (Some "hi") Schedule_for_Later 5 true) []).
  - reflexivity.
  - discriminate.
  - discriminate.
  - reflexivity.
Defined.

(** C6: no exception leaves [send_twilio_message] or either submit handler,
    whatever the channels do.  A fault of the Twilio channel comes back as
    the value [(False, text)]; when it is not a [TwilioRestException] the
    text is ["An unexpected error occurred: "] followed by [str(e)].  A
    fault of the browser channel ends in the error notice carrying
    [str(e)]. *)
Theorem faults_become_failures (w : World) :
  (∀ sid token from_num to_num msg tr,
     ∃ success text tr',
       send_twilio_message w sid token from_num to_num msg tr = (Ret (success, text), tr')) ∧
  (∀ f tr, ∃ tr', whatsapp_web_form w f tr = (Ret tt, tr')) ∧
  (∀ defaults f tr, ∃ tr', twilio_form w defaults f tr = (Ret tt, tr')) ∧
  (∀ sid token from_num to_num msg tr e,
     twilio_Client w sid token = Some e ∨
     (twilio_Client w sid token = None ∧
      twilio_create w sid token msg from_num ("whatsapp:" +:+ to_num) = Raise e) →
     fst (send_twilio_message w sid token from_num to_num msg tr) = Ret (twilio_except e) ∧
     fst (twilio_except e) = false ∧
     ((∀ m t, e ≠ TwilioRestException m t) →
      snd (twilio_except e) = "An unexpected error occurred: " +:+ str e)) ∧
  (∀ f tr e tr',
     submit_button f = true → phone_number f ≠ "" → message f ≠ "" →
     send_pywhatkit_message w (phone_number f) (message f) (schedule f)
       (tr ++ [St (st_spinner "Preparing to send message...")]) = (Raise e, tr') →
     whatsapp_web_form w f tr = (Ret tt, tr' ++ [St (st_error ("❌ Error: " +:+ str e))])).
Proof.
  split; [intros; apply send_twilio_message_returns|].
  split; [intros; apply whatsapp_web_form_returns|].
  split; [intros; apply twilio_form_returns|].
  split.
  - intros sid token from_num to_num msg tr e Hfault.
    split; [|split].
    + rewrite send_twilio_message_run.
      destruct Hfault as [Hc | [Hc Hm]]; rewrite Hc; [reflexivity|].
      rewrite Hm. reflexivity.
    + destruct e; reflexivity.
    + intros Hother. destruct e; try reflexivity.
      exfalso. eapply Hother. reflexivity.
  - intros f tr e tr' Hs Hp Hm Hsend.
    rewrite whatsapp_web_form_run by assumption. rewrite Hsend. reflexivity.
Qed.

Lemma faults_become_failures_witness :
  (fst (send_twilio_message (create_raising (OtherException "ConnectionError" "Connection refused"))
          "AC1" "tok" "whatsapp:+14155238886" "+15551234567" "hi" [])
   = Ret (twilio_except (OtherException "ConnectionError" "Connection refused")) ∧
   fst (twilio_except (OtherException "ConnectionError" "Connection refused")) = false ∧
   ((∀ m t, OtherException "ConnectionError" "Connection refused" ≠ TwilioRestException m t) →
    snd (twilio_except (OtherException "ConnectionError" "Connection refused"))
    = "An unexpected error occurred: " +:+ "Connection refused")) ∧
  whatsapp_web_form (kit_raising noon (OtherException "CallTimeException" "Call Time must be Greater than Wait Time"))
    (mk_WebForm (Some "+15551234567") (Some "hi") Schedule_for_Later 1 true) []
  = (Ret tt,
     [St (st_spinner "Preparing to send message..."); Now;
      Kit (sendwhatmsg "+15551234567" "hi" 12 1)]
     ++ [St (st_error ("❌ Error: " +:+ "Call Time must be Greater than Wait Time"))]).
Proof.
  split.
  - destruct (faults_become_failures
                (create_raising (OtherException "ConnectionError" "Connection refused")))
      as (_ & _ & _ & Htwilio & _).
    apply (Htwilio "AC1" "tok" "whatsapp:+14155238886" "+15551234567" "hi" []
             (OtherException "ConnectionError" "Connection refused"))%string.
    right. split; reflexivity.
  - destruct (faults_become_failures
                (kit_raising noon (OtherException "CallTimeException"
                                     "Call Time must be Greater than Wait Time")))
      as (_ & _ & _ & _ & Hweb).
    apply (Hweb (mk_WebForm (Some "+15551234567") (Some "hi") Schedule_for_Later 1 true) []
             (OtherException "CallTimeException" "Call Time must be Greater than Wait Time")).
    + reflexivity.
    + discriminate.
    + discriminate.
    + reflexivity.
Defined.

(** ** Default credentials *)

(** C9: when the secrets store is absent, that is when a lookup raises
    [FileNotFoundError] (at the first, second or third key, the earlier ones
    having returned), the three defaults are the empty string, the hint is
    shown, and [run_app] goes on to the Twilio form and returns. *)
Theorem absent_secrets_give_empty_defaults (w : World) (text : string) (tr : list Event) :
  secrets_get w "TWILIO_ACCOUNT_SID" "" = Raise (FileNotFoundError text) ∨
  (∃ a, secrets_get w "TWILIO_ACCOUNT_SID" "" = Ret a ∧
        (secrets_get w "TWILIO_AUTH_TOKEN" "" = Raise (FileNotFoundError text) ∨
         ∃ b, secrets_get w "TWILIO_AUTH_TOKEN" "" = Ret b ∧
              secrets_get w "TWILIO_WHATSAPP_NUMBER" "" = Raise (FileNotFoundError text))) →
  load_secrets w tr
  = (Ret ("", "", "")%string,
     tr ++ [St (st_info "Create a `.streamlit/secrets.toml` file to pre-fill your credentials.")]) ∧
  ∀ f1 f2, ∃ tr', run_app w f1 f2 tr = (Ret tt, tr').
Proof.
  intros Habsent.
  assert (Hload : ∀ tr0, load_secrets w tr0
    = (Ret ("", "", "")%string,
       tr0 ++ [St (st_info "Create a `.streamlit/secrets.toml` file to pre-fill your credentials.")])).
  { intros tr0. unfold load_secrets, try_except, bind, lift, ret, st_call, emit.
    destruct Habsent as [H1 | (a & H1 & [H2 | (b & H2 & H3)])].
    - rewrite H1. reflexivity.
    - rewrite H1, H2. reflexivity.
    - rewrite H1, H2, H3. reflexivity. }
  split; [apply Hload|].
  intros f1 f2. unfold run_app, bind.
  destruct (whatsapp_web_form_returns w f1 tr) as [tr1 H1]. rewrite H1.
  rewrite Hload. apply twilio_form_returns.
Qed.

Lemma absent_secrets_give_empty_defaults_witness :
  load_secrets (no_secrets "No secrets files found.") []
  = (Ret ("", "", "")%string,
     [] ++ [St (st_info "Create a `.streamlit/secrets.toml` file to pre-fill your credentials.")]) ∧
  ∀ f1 f2, ∃ tr', run_app (no_secrets "No secrets files found.") f1 f2 [] = (Ret tt, tr').
Proof.
  apply (absent_secrets_give_empty_defaults (no_secrets "No secrets files found.")
           "No secrets files found." []).
  left. reflexivity.
Defined.

(** With the store present, the defaults are what the lookups return. *)
Lemma present_secrets_are_the_defaults (w : World) (a b c : string) (tr : list Event) :
  secrets_get w "TWILIO_ACCOUNT_SID" "" = Ret a →
  secrets_get w "TWILIO_AUTH_TOKEN" "" = Ret b →
  secrets_get w "TWILIO_WHATSAPP_NUMBER" "" = Ret c →
  load_secrets w tr = (Ret (a, b, c), tr).
Proof.
  intros H1 H2 H3. unfold load_secrets, try_except, bind, lift, ret.
  rewrite H1, H2, H3. reflexivity.
Qed.

(** ** From the widgets to the driver *)

(** "Send Instantly" selected: the delay widget is not rendered, the
    schedule carries a delay of 0, and the handler does the same whatever
    value the widget state holds. *)
Lemma whatsapp_web_form_instant_ignores_number_input (w : World) (f : WebForm)
    (n : Z) (tr : list Event) :
  send_option f = Send_Instantly →
  whatsapp_web_form w f tr
  = whatsapp_web_form w
      (mk_WebForm (phone_typed f) (message_typed f) Send_Instantly n (submit_button f)) tr.
Proof.
  intros Ho. destruct f as [p m o k s]. simpl in Ho. subst o. reflexivity.
Qed.

(** "Schedule for Later" selected with the widget at [d]: the driver is
    called with the hour and minute of the clock time plus [d] minutes, read
    after the spinner is shown. *)
Lemma whatsapp_web_form_delayed (w : World) (f : WebForm) (tr : list Event) :
  submit_button f = true → phone_number f ≠ "" → message f ≠ "" →
  send_option f = Schedule_for_Later → 1 ≤ number_input f ≤ 60 →
  valid_datetime (clock w) →
  timeline (clock w) + number_input f * 60000000 ≤ timeline datetime_max →
  ∃ target,
    timeline target = timeline (clock w) + number_input f * 60000000 ∧
    kit_calls (snd (whatsapp_web_form w f tr))
    = kit_calls tr ++ [sendwhatmsg (phone_number f) (message f) (hour target) (minute target)].
Proof.
  intros Hs Hp Hm Ho Hd Hnow Hmax.
  destruct (send_pywhatkit_message_delayed w (phone_number f) (message f) (schedule f)
              (VBool false) (number_input f)
              (tr ++ [St (st_spinner "Preparing to send message...")]))
    as (target & _ & Hline & _ & _ & _ & Hrun).
  - rewrite schedule_instant, Ho. reflexivity.
  - reflexivity.
  - rewrite schedule_delay, Ho. reflexivity.
  - assumption.
  - split; [|assumption].
    destruct Hnow as (H1 & H2 & H3 & H4 & H5).
    unfold timeline, datetime_min; simpl. lia.
  - exists target. split; [assumption|].
    rewrite whatsapp_web_form_run by assumption. rewrite Hrun.
    destruct (kit w _); simpl; rewrite !kit_calls_app; simpl;
      rewrite ?app_nil_r; reflexivity.
Qed.

(** ** Concrete secrets stores *)

(** A secrets file that lacks the three keys also leaves the defaults
    empty, through the [default] argument of [get]; no hint is shown. *)
Lemma missing_keys_give_empty_defaults (m : gmap string string) (text : string)
    (tr : list Event) :
  m !! "TWILIO_ACCOUNT_SID" = None →
  m !! "TWILIO_AUTH_TOKEN" = None →
  m !! "TWILIO_WHATSAPP_NUMBER" = None →
  load_secrets (with_store (Some m) text) tr = (Ret ("", "", "")%string, tr).
Proof.
  intros H1 H2 H3.
  apply present_secrets_are_the_defaults; simpl; unfold st_secrets_get.
  - rewrite H1. reflexivity.
  - rewrite H2. reflexivity.
  - rewrite H3. reflexivity.
Qed.

(** A secrets file holding the three keys pre-fills the form with them. *)
Example secrets_file_prefills :
  load_secrets
    (with_store (Some (<["TWILIO_ACCOUNT_SID" := "AC1"%string]>
                         (<["TWILIO_AUTH_TOKEN" := "tok"%string]>
                            {["TWILIO_WHATSAPP_NUMBER" := "whatsapp:+14155238886"%string]})))
       "") []
  = (Ret ("AC1", "tok", "whatsapp:+14155238886")%string, []).
Proof. reflexivity. Qed.


(** * Further properties of the code *)

(** ** Trace projections *)

Lemma twilio_calls_app (tr1 tr2 : list Event) :
  twilio_calls (tr1 ++ tr2) = twilio_calls tr1 ++ twilio_calls tr2.
Proof.
  induction tr1 as [|ev tr1 IH]; [done|].
  destruct ev; simpl; rewrite IH; done.
Qed.

Lemma clock_reads_app (tr1 tr2 : list Event) :
  clock_reads (tr1 ++ tr2) = (clock_reads tr1 + clock_reads tr2)%nat.
Proof.
  induction tr1 as [|ev tr1 IH]; [done|].
  destruct ev; simpl; rewrite IH; done.
Qed.

(** ** [send_pywhatkit_message]: keys, types and bounds *)

(** The hour and minute of any sum [dt + td] are a time of day. *)
Lemma datetime_add_time_of_day (dt : datetime) (td : timedelta) (target : datetime) :
  datetime_add dt td = Ret target →
  0 ≤ hour target < 24 ∧ 0 ≤ minute target < 60.
Proof.
  unfold datetime_add.
  destruct ((0 <? _) && (_ <=? MAXORDINAL)); [|discriminate].
  intros [= <-]. simpl. split; Z.div_mod_to_equations; lia.
Qed.

(** The only exception [timedelta(minutes=n)] raises for an integer is
    [OverflowError]. *)
Lemma timedelta_minutes_int_raises (n : Z) (e : PyExn) :
  timedelta_minutes (VInt n) = Raise e → ∃ text, e = OverflowError text.
Proof.
  unfold timedelta_minutes. destruct (999999999 <? _); [|discriminate].
  intros [= <-]. eauto.
Qed.

Lemma datetime_add_raises (dt : datetime) (td : timedelta) (e : PyExn) :
  datetime_add dt td = Raise e → e = OverflowError "date value out of range".
Proof.
  unfold datetime_add. destruct ((0 <? _) && (_ <=? MAXORDINAL)); [discriminate|].
  intros [= <-]. reflexivity.
Qed.

(** The events one call of [send_pywhatkit_message] adds to the trace:
    nothing, the instant call, a clock read, or a clock read followed by
    the scheduled call. *)
Lemma send_pywhatkit_message_events (w : World) (phone_no msg : string)
    (schedule_time : gmap string PyVal) (tr : list Event) :
  ∃ evs,
    snd (send_pywhatkit_message w phone_no msg schedule_time tr) = tr ++ evs ∧
    (evs = [] ∨
     evs = [Kit (sendwhatmsg_instantly phone_no msg 15 true)] ∨
     evs = [Now] ∨
     ∃ h mi, evs = [Now; Kit (sendwhatmsg phone_no msg h mi)] ∧
             0 ≤ h < 24 ∧ 0 ≤ mi < 60).
Proof.
  unfold send_pywhatkit_message, getitem, datetime_now, kit_call, bind, lift, emit, ret, raise.
  destruct (schedule_time !! "instant") as [v|].
  2:{ exists []. rewrite app_nil_r. auto. }
  destruct (truthy v).
  { eexists. split; [|right; left; reflexivity]. destruct (kit w _); reflexivity. }
  destruct (schedule_time !! "delay") as [delay|].
  2:{ exists [Now]. auto. }
  destruct (timedelta_minutes delay) as [td|e].
  2:{ exists [Now]. auto. }
  destruct (datetime_add (clock w) td) as [target|e] eqn:Hadd.
  2:{ exists [Now]. auto. }
  apply datetime_add_time_of_day in Hadd.
  exists [Now; Kit (sendwhatmsg phone_no msg (hour target) (minute target))].
  split.
  - rewrite <- app_assoc. destruct (kit w _); reflexivity.
  - right; right; right. eauto.
Qed.

(** X1: a schedule without the key 'instant' makes [send_pywhatkit_message]
    raise [KeyError('instant')] before anything else happens: the clock is
    not read and the driver is not called. *)
Theorem missing_instant_key_raises (w : World) (phone_no msg : string)
    (schedule_time : gmap string PyVal) (tr : list Event) :
  schedule_time !! "instant" = None →
  send_pywhatkit_message w phone_no msg schedule_time tr
  = (Raise (KeyError "'instant'"), tr).
Proof.
  intros Hi. unfold send_pywhatkit_message, getitem, bind, raise.
  rewrite Hi. reflexivity.
Qed.

Lemma missing_instant_key_raises_witness :
  send_pywhatkit_message (succeeding noon "") "+15551234567" "hi"
    {["delay" := VInt 5]} []
  = (Raise (KeyError "'instant'"), []).
Proof.
  apply (missing_instant_key_raises (succeeding noon "") "+15551234567" "hi"
           {["delay" := VInt 5]} []).
  reflexivity.
Defined.

(** X2: in delayed mode a schedule whose 'delay' is missing raises
    [KeyError('delay')], and one whose 'delay' is a string raises
    [TypeError]; in both cases the clock has been read and the driver is
    never called. *)
Theorem unusable_delay_raises (w : World) (phone_no msg : string)
    (schedule_time : gmap string PyVal) (v : PyVal) (tr : list Event) :
  schedule_time !! "instant" = Some v → truthy v = false →
  (schedule_time !! "delay" = None →
   send_pywhatkit_message w phone_no msg schedule_time tr
   = (Raise (KeyError "'delay'"), tr ++ [Now])) ∧
  (∀ s, schedule_time !! "delay" = Some (VStr s) →
   send_pywhatkit_message w phone_no msg schedule_time tr
   = (Raise (TypeError "unsupported type for timedelta minutes component: str"),
      tr ++ [Now])).
Proof.
  intros Hi Hv.
  split; [intros Hd | intros s Hd];
    unfold send_pywhatkit_message, getitem, datetime_now, bind, lift, emit, ret, raise;
    rewrite Hi, Hv, Hd; reflexivity.
Qed.

Lemma unusable_delay_raises_witness :
  send_pywhatkit_message (succeeding noon "") "+15551234567" "hi"
    {["instant" := VBool false]} []
  = (Raise (KeyError "'delay'"), [] ++ [Now]) ∧
  send_pywhatkit_message (succeeding noon "") "+15551234567" "hi"
    (<["delay" := VStr "5"]> {["instant" := VBool false]}) []
  = (Raise (TypeError "unsupported type for timedelta minutes component: str"),
     [] ++ [Now]).
Proof.
  split.
  - destruct (unusable_delay_raises (succeeding noon "") "+15551234567" "hi"
                {["instant" := VBool false]} (VBool false) []) as [Hmissing _];
      [reflexivity | reflexivity |].
    apply Hmissing. reflexivity.
  - destruct (unusable_delay_raises (succeeding noon "") "+15551234567" "hi"
                (<["delay" := VStr "5"]> {["instant" := VBool false]}) (VBool false) [])
      as [_ Htext]; [reflexivity | reflexivity |].
    apply (Htext "5"%string). reflexivity.
Defined.

(** X3: whatever the schedule, the clock and the world, a scheduled call
    reaches the driver with an hour in 0..23 and a minute in 0..59. *)
Theorem driver_time_in_range (w : World) (phone_no msg : string)
    (schedule_time : gmap string PyVal) (p m : string) (h mi : Z) :
  In (Kit (sendwhatmsg p m h mi))
     (snd (send_pywhatkit_message w phone_no msg schedule_time [])) →
  0 ≤ h < 24 ∧ 0 ≤ mi < 60.
Proof.
  destruct (send_pywhatkit_message_events w phone_no msg schedule_time [])
    as (evs & -> & Hevs).
  simpl. intros Hin.
  destruct Hevs as [-> | [-> | [-> | (h' & mi' & -> & Hh & Hmi)]]];
    simpl in Hin; try (intuition discriminate).
  destruct Hin as [H | [H | []]]; [discriminate|].
  injection H as _ _ <- <-. auto.
Qed.

Lemma driver_time_in_range_witness : 0 ≤ 0 < 24 ∧ 0 ≤ 3 < 60.
Proof.
  apply (driver_time_in_range (succeeding late "") "+15551234567" "hi"
           (<["delay" := VInt 5]> {["instant" := VBool false]})
           "+15551234567" "hi" 0 3).
  right. left. reflexivity.
Defined.

(** X4: one call of [send_pywhatkit_message] calls the driver at most
    once, and any call it makes carries the phone number and the message
    it was given, unchanged. *)
Theorem send_calls_driver_at_most_once (w : World) (phone_no msg : string)
    (schedule_time : gmap string PyVal) (tr : list Event) :
  ∃ calls,
    kit_calls (snd (send_pywhatkit_message w phone_no msg schedule_time tr))
    = kit_calls tr ++ calls ∧
    (length calls ≤ 1)%nat ∧
    ∀ c, In c calls →
         c = sendwhatmsg_instantly phone_no msg 15 true ∨
         ∃ h mi, c = sendwhatmsg phone_no msg h mi.
Proof.
  destruct (send_pywhatkit_message_events w phone_no msg schedule_time tr)
    as (evs & -> & Hevs).
  exists (kit_calls evs). split; [apply kit_calls_app|].
  destruct Hevs as [-> | [-> | [-> | (h & mi & -> & _)]]]; simpl;
    (split; [lia|]); intros c Hc; simpl in Hc; try contradiction;
    destruct Hc as [<- | []]; eauto.
Qed.

(** Past [datetime.max], a delay of 1..60 minutes cannot be added. *)
Lemma datetime_add_past_max (now : datetime) (d : Z) :
  valid_datetime now → 1 ≤ d ≤ 60 →
  timeline datetime_max < timeline now + d * 60000000 →
  ∃ td, timedelta_minutes (VInt d) = Ret td ∧
        datetime_add now td = Raise (OverflowError "date value out of range").
Proof.
  destruct now as [o h m s us].
  unfold valid_datetime, timeline, datetime_max, MAXORDINAL; simpl.
  intros (Ho & Hh & Hm & Hs & Hus) Hd Hpast.
  unfold timedelta_minutes.
  assert (Hdays : (d * 60) `div` 86400 = 0) by (apply Z.div_small; lia).
  assert (Hsecs : (d * 60) `mod` 86400 = d * 60) by (apply Z.mod_small; lia).
  rewrite Hdays, Hsecs. simpl.
  eexists. split; [reflexivity|].
  unfold datetime_add, MAXORDINAL; simpl.
  destruct ((0 <? _) && (_ <=? 3652059)) eqn:Hin; [|reflexivity].
  exfalso. apply andb_true_iff in Hin. destruct Hin as [_ Hle].
  apply Z.leb_le in Hle. Z.div_mod_to_equations. lia.
Qed.

(** The delayed branch, by what the date arithmetic answers. *)
Lemma send_pywhatkit_message_delayed_run (w : World) (phone_no msg : string)
    (schedule_time : gmap string PyVal) (v delay : PyVal) (tr : list Event) :
  schedule_time !! "instant" = Some v → truthy v = false →
  schedule_time !! "delay" = Some delay →
  send_pywhatkit_message w phone_no msg schedule_time tr
  = match timedelta_minutes delay with
    | Raise e => (Raise e, tr ++ [Now])
    | Ret td =>
        match datetime_add (clock w) td with
        | Raise e => (Raise e, tr ++ [Now])
        | Ret send_time =>
            (match kit w (sendwhatmsg phone_no msg (hour send_time) (minute send_time)) with
             | None => Ret tt
             | Some e => Raise e
             end,
             tr ++ [Now; Kit (sendwhatmsg phone_no msg (hour send_time) (minute send_time))])
        end
    end.
Proof.
  intros Hi Hv Hd.
  unfold send_pywhatkit_message, getitem, datetime_now, kit_call, bind, lift, emit, ret, raise.
  rewrite Hi, Hv, Hd.
  destruct (timedelta_minutes delay) as [td|e]; [|reflexivity].
  destruct (datetime_add (clock w) td) as [send_time|e]; [|reflexivity].
  rewrite <- app_assoc. destruct (kit w _); reflexivity.
Qed.

(** X5: the schedule the form builds always holds both keys, with a
    boolean and an integer: the send it starts never raises [KeyError] or
    [TypeError].  An exception leaving it is an [OverflowError] of the date
    arithmetic or one the driver raised. *)
Theorem form_schedule_is_well_formed (w : World) (f : WebForm) (tr tr' : list Event)
    (e : PyExn) :
  send_pywhatkit_message w (phone_number f) (message f) (schedule f) tr = (Raise e, tr') →
  (∃ text, e = OverflowError text) ∨ (∃ c, kit w c = Some e).
Proof.
  destruct (send_option f) eqn:Ho.
  - rewrite (send_pywhatkit_message_instant w _ _ _ (VBool true));
      [| rewrite schedule_instant, Ho; reflexivity | reflexivity].
    destruct (kit w _) as [e'|] eqn:Hk; [|discriminate].
    intros Heq. simplify_eq. right. eauto.
  - rewrite (send_pywhatkit_message_delayed_run w _ _ _ (VBool false)
               (VInt (number_input f)));
      [| rewrite schedule_instant, Ho; reflexivity | reflexivity
       | rewrite schedule_delay, Ho; reflexivity].
    destruct (timedelta_minutes (VInt (number_input f))) as [td|e'] eqn:Htd.
    2:{ intros Heq. simplify_eq.
        left. eapply timedelta_minutes_int_raises, Htd. }
    destruct (datetime_add (clock w) td) as [target|e'] eqn:Hadd.
    2:{ intros Heq. simplify_eq.
        left. apply datetime_add_raises in Hadd. eauto. }
    destruct (kit w _) as [e'|] eqn:Hk; [|discriminate].
    intros Heq. simplify_eq. right. eauto.
Qed.

Lemma form_schedule_is_well_formed_witness :
  (∃ text, OtherException "CallTimeException" "too soon" = OverflowError text) ∨
  (∃ c, kit (kit_raising noon (OtherException "CallTimeException" "too soon")) c
        = Some (OtherException "CallTimeException" "too soon")).
Proof.
  apply (form_schedule_is_well_formed
           (kit_raising noon (OtherException "CallTimeException" "too soon"))
           (mk_WebForm (Some "+15551234567") (Some "hi") Schedule_for_Later 5 true)
           [] [Now; Kit (sendwhatmsg "+15551234567" "hi" 12 5)]).
  reflexivity.
Defined.

(** X6: a delayed send whose target would lie past [datetime.max] is not
    handed to the driver: the handler reads the clock and shows the error
    notice of the [OverflowError]. *)
Theorem overflowing_target_shows_error (w : World) (f : WebForm) (tr : list Event) :
  submit_button f = true → phone_number f ≠ "" → message f ≠ "" →
  send_option f = Schedule_for_Later → 1 ≤ number_input f ≤ 60 →
  valid_datetime (clock w) →
  timeline datetime_max < timeline (clock w) + number_input f * 60000000 →
  whatsapp_web_form w f tr
  = (Ret tt, tr ++ [St (st_spinner "Preparing to send message..."); Now;
                    St (st_error "❌ Error: date value out of range")]).
Proof.
  intros Hs Hp Hm Ho Hd Hnow Hpast.
  destruct (datetime_add_past_max (clock w) (number_input f) Hnow Hd Hpast)
    as (td & Htd & Hadd).
  rewrite whatsapp_web_form_run by assumption.
  rewrite (send_pywhatkit_message_delayed_run w _ _ _ (VBool false)
             (VInt (number_input f)));
    [| rewrite schedule_instant, Ho; reflexivity | reflexivity
     | rewrite schedule_delay, Ho; reflexivity].
  rewrite Htd, Hadd. rewrite <- !app_assoc. reflexivity.
Qed.

Lemma overflowing_target_shows_error_witness :
  whatsapp_web_form (succeeding last_minute "")
    (mk_WebForm (Some "+15551234567") (Some "hi") Schedule_for_Later 5 true) []
  = (Ret tt, [] ++ [St (st_spinner "Preparing to send message..."); Now;
                    St (st_error "❌ Error: date value out of range")]).
Proof.
  apply (overflowing_target_shows_error (succeeding last_minute "")
           (mk_WebForm (Some "+15551234567") (Some "hi") Schedule_for_Later 5 true) []).
  - reflexivity.
  - discriminate.
  - discriminate.
  - reflexivity.
  - simpl; lia.
  - unfold valid_datetime, succeeding, last_minute, MAXORDINAL; simpl; lia.
  - vm_compute; reflexivity.
Defined.

(** X7: the scheduled call carries no date.  Two clock times with the same
    hour and minute, on whatever days and at whatever seconds, give the
    driver the same call for the same delay. *)
Theorem scheduled_call_ignores_the_date (w1 w2 : World) (phone_no msg : string)
    (schedule_time : gmap string PyVal) (v : PyVal) (d : Z) :
  schedule_time !! "instant" = Some v → truthy v = false →
  schedule_time !! "delay" = Some (VInt d) →
  valid_datetime (clock w1) → valid_datetime (clock w2) →
  timeline datetime_min ≤ timeline (clock w1) + d * 60000000 ≤ timeline datetime_max →
  timeline datetime_min ≤ timeline (clock w2) + d * 60000000 ≤ timeline datetime_max →
  hour (clock w1) = hour (clock w2) → minute (clock w1) = minute (clock w2) →
  kit_calls (snd (send_pywhatkit_message w1 phone_no msg schedule_time []))
  = kit_calls (snd (send_pywhatkit_message w2 phone_no msg schedule_time [])).
Proof.
  intros Hi Hv Hd Hv1 Hv2 Hr1 Hr2 Hh Hm.
  destruct (send_pywhatkit_message_delayed w1 phone_no msg schedule_time v d []
              Hi Hv Hd Hv1 Hr1) as (t1 & _ & _ & Hh1 & Hm1 & _ & Hrun1).
  destruct (send_pywhatkit_message_delayed w2 phone_no msg schedule_time v d []
              Hi Hv Hd Hv2 Hr2) as (t2 & _ & _ & Hh2 & Hm2 & _ & Hrun2).
  rewrite Hrun1, Hrun2. simpl.
  rewrite Hh1, Hm1, Hh2, Hm2, Hh, Hm. reflexivity.
Qed.

Lemma scheduled_call_ignores_the_date_witness :
  kit_calls (snd (send_pywhatkit_message (succeeding late "") "+15551234567" "hi"
                    (<["delay" := VInt 5]> {["instant" := VBool false]}) []))
  = kit_calls (snd (send_pywhatkit_message
                      (succeeding (mk_datetime 730120 23 58 41 7) "") "+15551234567" "hi"
                      (<["delay" := VInt 5]> {["instant" := VBool false]}) [])).
Proof.
  apply (scheduled_call_ignores_the_date (succeeding late "")
           (succeeding (mk_datetime 730120 23 58 41 7) "") "+15551234567" "hi"
           (<["delay" := VInt 5]> {["instant" := VBool false]}) (VBool false) 5).
  - reflexivity.
  - reflexivity.
  - reflexivity.
  - unfold valid_datetime, MAXORDINAL; simpl; lia.
  - unfold valid_datetime, MAXORDINAL; simpl; lia.
  - vm_compute; split; discriminate.
  - vm_compute; split; discriminate.
  - reflexivity.
  - reflexivity.
Defined.

(** ** The browser form, end to end *)

(** X8: a submitted, filled-in form with "Send Instantly" never reads the
    clock.  It shows the spinner, makes the one instant call with the
    form's number and message, and then shows the success notice and the
    balloons when the driver returned, or the error notice with the
    driver's [str(e)] when it raised. *)
Theorem instant_form_run (w : World) (f : WebForm) (tr : list Event) :
  submit_button f = true → phone_number f ≠ "" → message f ≠ "" →
  send_option f = Send_Instantly →
  whatsapp_web_form w f tr
  = (Ret tt,
     tr ++ [St (st_spinner "Preparing to send message...");
            Kit (sendwhatmsg_instantly (phone_number f) (message f) 15 true)]
        ++ match kit w (sendwhatmsg_instantly (phone_number f) (message f) 15 true) with
           | None => [St (st_success "✅ WhatsApp Web has been opened to send your message!");
                      St st_balloons]
           | Some e => [St (st_error ("❌ Error: " +:+ str e))]
           end) ∧
  clock_reads (snd (whatsapp_web_form w f tr)) = clock_reads tr.
Proof.
  intros Hs Hp Hm Ho.
  assert (Hrun : whatsapp_web_form w f tr
    = (Ret tt,
       tr ++ [St (st_spinner "Preparing to send message...");
              Kit (sendwhatmsg_instantly (phone_number f) (message f) 15 true)]
          ++ match kit w (sendwhatmsg_instantly (phone_number f) (message f) 15 true) with
             | None => [St (st_success "✅ WhatsApp Web has been opened to send your message!");
                        St st_balloons]
             | Some e => [St (st_error ("❌ Error: " +:+ str e))]
             end)).
  { rewrite whatsapp_web_form_run by assumption.
    rewrite (send_pywhatkit_message_instant w _ _ _ (VBool true));
      [| rewrite schedule_instant, Ho; reflexivity | reflexivity].
    destruct (kit w _); rewrite <- !app_assoc; reflexivity. }
  split; [exact Hrun|].
  rewrite Hrun. simpl. rewrite clock_reads_app.
  destruct (kit w _); simpl; lia.
Qed.

Lemma instant_form_run_witness :
  whatsapp_web_form (kit_raising noon (OtherException "CountryCodeException" "Country Code Missing in Phone Number!"))
    (mk_WebForm (Some "5551234567") (Some "hi") Send_Instantly 5 true) []
  = (Ret tt,
     [] ++ [St (st_spinner "Preparing to send message...");
            Kit (sendwhatmsg_instantly "5551234567" "hi" 15 true)]
        ++ [St (st_error ("❌ Error: " +:+ "Country Code Missing in Phone Number!"))]) ∧
  clock_reads (snd (whatsapp_web_form
    (kit_raising noon (OtherException "CountryCodeException" "Country Code Missing in Phone Number!"))
    (mk_WebForm (Some "5551234567") (Some "hi") Send_Instantly 5 true) [])) = clock_reads [].
Proof.
  apply (instant_form_run
           (kit_raising noon (OtherException "CountryCodeException"
                                "Country Code Missing in Phone Number!"))
           (mk_WebForm (Some "5551234567") (Some "hi") Send_Instantly 5 true) []).
  - reflexivity.
  - discriminate.
  - discriminate.
  - reflexivity.
Defined.

(** X9: a submitted, filled-in browser form ends in exactly one of two
    ways: the spinner, the success notice and the balloons; or the spinner
    and one error notice.  It never shows the validation warning, and never
    both notices. *)
Theorem browser_form_notices (w : World) (f : WebForm) :
  submit_button f = true → phone_number f ≠ "" → message f ≠ "" →
  st_calls (snd (whatsapp_web_form w f []))
  = [st_spinner "Preparing to send message...";
     st_success "✅ WhatsApp Web has been opened to send your message!";
     st_balloons] ∨
  ∃ e, st_calls (snd (whatsapp_web_form w f []))
       = [st_spinner "Preparing to send message..."; st_error ("❌ Error: " +:+ str e)].
Proof.
  intros Hs Hp Hm.
  rewrite whatsapp_web_form_run by assumption.
  destruct (send_pywhatkit_message_events w (phone_number f) (message f) (schedule f)
              ([] ++ [St (st_spinner "Preparing to send message...")]))
    as (evs & Hsnd & Hevs).
  destruct (send_pywhatkit_message w (phone_number f) (message f) (schedule f) _)
    as [r tr'].
  simpl in Hsnd. subst tr'.
  assert (Hst : st_calls evs = []).
  { destruct Hevs as [-> | [-> | [-> | (h & mi & -> & _)]]]; reflexivity. }
  destruct r as [[]|e]; [left | right; exists e];
    simpl; rewrite st_calls_app, Hst; reflexivity.
Qed.

Lemma browser_form_notices_witness :
  st_calls (snd (whatsapp_web_form (succeeding noon "")
     (mk_WebForm (Some "+15551234567") (Some "hi") Schedule_for_Later 5 true) []))
  = [st_spinner "Preparing to send message...";
     st_success "✅ WhatsApp Web has been opened to send your message!";
     st_balloons] ∨
  ∃ e, st_calls (snd (whatsapp_web_form (succeeding noon "")
     (mk_WebForm (Some "+15551234567") (Some "hi") Schedule_for_Later 5 true) []))
       = [st_spinner "Preparing to send message..."; st_error ("❌ Error: " +:+ str e)].
Proof.
  apply (browser_form_notices (succeeding noon "")
           (mk_WebForm (Some "+15551234567") (Some "hi") Schedule_for_Later 5 true)).
  - reflexivity.
  - discriminate.
  - discriminate.
Defined.

(** The browser handler adds no Twilio call to the trace. *)
Lemma whatsapp_web_form_twilio_calls (w : World) (f : WebForm) (tr : list Event) :
  twilio_calls (snd (whatsapp_web_form w f tr)) = twilio_calls tr.
Proof.
  destruct (submit_button f) eqn:Hs;
    [|unfold whatsapp_web_form; rewrite Hs; reflexivity].
  destruct (str_truthy (phone_number f)) eqn:Hp.
  2:{ unfold whatsapp_web_form. rewrite Hs, Hp. simpl.
      rewrite twilio_calls_app. simpl. apply app_nil_r. }
  destruct (str_truthy (message f)) eqn:Hm.
  2:{ unfold whatsapp_web_form. rewrite Hs, Hp, Hm. simpl.
      rewrite twilio_calls_app. simpl. apply app_nil_r. }
  apply str_truthy_true in Hp, Hm.
  rewrite whatsapp_web_form_run by assumption.
  destruct (send_pywhatkit_message_events w (phone_number f) (message f) (schedule f)
              (tr ++ [St (st_spinner "Preparing to send message...")]))
    as (evs & Hsnd & Hevs).
  destruct (send_pywhatkit_message w (phone_number f) (message f) (schedule f) _)
    as [r tr'].
  simpl in Hsnd. subst tr'.
  assert (Htw : twilio_calls evs = []).
  { destruct Hevs as [-> | [-> | [-> | (h & mi & -> & _)]]]; reflexivity. }
  destruct r as [[]|e]; simpl; rewrite !twilio_calls_app, Htw; simpl;
    rewrite !app_nil_r; reflexivity.
Qed.

(** X10: the browser form never touches Twilio, whatever is entered and
    whatever the driver does: no [Client] is built and no message created,
    in any of its outcomes. *)
Theorem browser_form_never_calls_twilio (w : World) (f : WebForm) (tr : list Event) :
  twilio_calls (snd (whatsapp_web_form w f tr)) = twilio_calls tr ∧
  ∀ c, In (Twilio c) (snd (whatsapp_web_form w f [])) → False.
Proof.
  split; [apply whatsapp_web_form_twilio_calls|].
  intros c Hin.
  assert (Hc : In c (twilio_calls (snd (whatsapp_web_form w f [])))).
  { induction (snd (whatsapp_web_form w f [])) as [|ev l IH]; [contradiction|].
    destruct Hin as [-> | Hin]; [left; reflexivity|].
    destruct ev; simpl; auto. }
  rewrite whatsapp_web_form_twilio_calls in Hc. contradiction.
Qed.

(** ** The Twilio form, end to end *)

(** X11: [send_twilio_message] reports success exactly when the client
    was built and the provider returned a message: a [True] flag never
    comes with a failed send, and an accepted send is never reported as a
    failure. *)
Theorem success_iff_provider_accepted (w : World)
    (sid token from_num to_num msg : string) (tr : list Event) :
  (∃ text, fst (send_twilio_message w sid token from_num to_num msg tr) = Ret (true, text))
  ↔ twilio_Client w sid token = None ∧
    ∃ msg_sid, twilio_create w sid token msg from_num ("whatsapp:" +:+ to_num) = Ret msg_sid.
Proof.
  assert (Hfalse : ∀ e text, twilio_except e ≠ (true, text)).
  { intros e text. destruct e; discriminate. }
  rewrite send_twilio_message_run.
  destruct (twilio_Client w sid token) as [e|].
  - split.
    + intros [text H]. simpl in H. exfalso. apply (Hfalse e text). congruence.
    + intros [H _]. discriminate.
  - destruct (twilio_create w sid token msg from_num _) as [msg_sid|e].
    + split; eauto.
    + split.
      * intros [text H]. simpl in H. exfalso. apply (Hfalse e text). congruence.
      * intros [_ [msg_sid H]]. discriminate.
Qed.

(** X12: the Twilio form never touches pywhatkit and never reads the
    clock, whatever is entered and whatever the provider does. *)
Theorem twilio_form_never_calls_the_driver (w : World)
    (defaults : string * string * string) (f : TwilioForm) (tr : list Event) :
  kit_calls (snd (twilio_form w defaults f tr)) = kit_calls tr ∧
  clock_reads (snd (twilio_form w defaults f tr)) = clock_reads tr.
Proof.
  destruct (submit_api_button f) eqn:Hs;
    [|unfold twilio_form; rewrite Hs; split; reflexivity].
  destruct (forallb str_truthy [account_sid defaults f; auth_token defaults f;
              from_number defaults f; to_number f; api_message f]) eqn:Hall.
  2:{ unfold twilio_form. rewrite Hs, Hall. simpl.
      rewrite kit_calls_app, clock_reads_app. simpl.
      rewrite app_nil_r. split; [reflexivity | lia]. }
  rewrite twilio_form_run by assumption.
  rewrite send_twilio_message_run.
  destruct (twilio_Client w _ _) as [e|].
  - destruct (twilio_except e) as [[] text]; simpl;
      rewrite !kit_calls_app, !clock_reads_app; simpl;
      rewrite !app_nil_r; split; (reflexivity || lia).
  - destruct (twilio_create w _ _ _ _ _) as [msg_sid|e];
      [|destruct (twilio_except e) as [[] text]]; simpl;
      rewrite !kit_calls_app, !clock_reads_app; simpl;
      rewrite !app_nil_r; split; (reflexivity || lia).
Qed.

(** X13: when the provider rejects the message of a submitted, filled-in
    Twilio form, the page shows one error notice made of the cross mark,
    ["Twilio Error: "] and the provider's message; one [Client] and one
    [messages.create] call were made, and nothing is retried. *)
Theorem rejected_send_shows_provider_message (w : World)
    (defaults : string * string * string) (f : TwilioForm)
    (provider_msg text : string) (tr : list Event) :
  submit_api_button f = true →
  account_sid defaults f ≠ "" → auth_token defaults f ≠ "" →
  from_number defaults f ≠ "" → to_number f ≠ "" → api_message f ≠ "" →
  twilio_Client w (account_sid defaults f) (auth_token defaults f) = None →
  twilio_create w (account_sid defaults f) (auth_token defaults f) (api_message f)
    (from_number defaults f) ("whatsapp:" +:+ to_number f)
  = Raise (TwilioRestException provider_msg text) →
  twilio_form w defaults f tr
  = (Ret tt,
     tr ++ [St (st_spinner "Sending message via Twilio...");
            Twilio (Client (account_sid defaults f) (auth_token defaults f));
            Twilio (messages_create (api_message f) (from_number defaults f)
                      ("whatsapp:" +:+ to_number f));
            St (st_error ("❌ " +:+ ("Twilio Error: " +:+ provider_msg)))]).
Proof.
  intros Hs H1 H2 H3 H4 H5 Hc Hm.
  rewrite twilio_form_run; [|assumption|].
  2:{ apply str_truthy_true in H1, H2, H3, H4, H5. simpl.
      rewrite H1, H2, H3, H4, H5. reflexivity. }
  rewrite send_twilio_message_run, Hc, Hm. simpl.
  rewrite <- !app_assoc. reflexivity.
Qed.

Lemma rejected_send_shows_provider_message_witness :
  twilio_form
    (create_raising (TwilioRestException "Invalid From Number"
                       "HTTP 400 error: Unable to create record: Invalid From Number"))
    ("AC1", "tok", "+14155238886")
    (mk_TwilioForm None None None (Some "+15551234567") (Some "hi") true) []
  = (Ret tt,
     [] ++ [St (st_spinner "Sending message via Twilio...");
            Twilio (Client "AC1" "tok");
            Twilio (messages_create "hi" "+14155238886" ("whatsapp:" +:+ "+15551234567"));
            St (st_error ("❌ " +:+ ("Twilio Error: " +:+ "Invalid From Number")))]).
Proof.
  apply (rejected_send_shows_provider_message
           (create_raising (TwilioRestException "Invalid From Number"
                              "HTTP 400 error: Unable to create record: Invalid From Number"))
           ("AC1", "tok", "+14155238886")%string
           (mk_TwilioForm None None None (Some "+15551234567") (Some "hi") true)
           "Invalid From Number"
           "HTTP 400 error: Unable to create record: Invalid From Number" []).
  - reflexivity.
  - discriminate.
  - discriminate.
  - discriminate.
  - discriminate.
  - discriminate.
  - reflexivity.
  - reflexivity.
Defined.

(** ** [run_app]: the two tabs and the secrets *)

(** What [load_secrets] adds to the trace is at most the hint. *)
Lemma load_secrets_events (w : World) (tr : list Event) :
  snd (load_secrets w tr) = tr ∨
  snd (load_secrets w tr)
  = tr ++ [St (st_info "Create a `.streamlit/secrets.toml` file to pre-fill your credentials.")].
Proof.
  unfold load_secrets, try_except, bind, lift, ret, raise, st_call, emit.
  destruct (secrets_get w "TWILIO_ACCOUNT_SID" "") as [a|e].
  2:{ destruct e; auto. }
  destruct (secrets_get w "TWILIO_AUTH_TOKEN" "") as [b|e].
  2:{ destruct e; auto. }
  destruct (secrets_get w "TWILIO_WHATSAPP_NUMBER" "") as [c|e].
  2:{ destruct e; auto. }
  auto.
Qed.

(** X14: rendering the page without pressing a button sends nothing:
    whatever the forms hold and whatever the secrets store does, [run_app]
    makes no pywhatkit and no Twilio call. *)
Theorem page_render_sends_nothing (w : World) (f1 : WebForm) (f2 : TwilioForm)
    (tr : list Event) :
  submit_button f1 = false → submit_api_button f2 = false →
  channel_calls (snd (run_app w f1 f2 tr)) = channel_calls tr.
Proof.
  intros Hs1 Hs2. unfold run_app, bind.
  unfold whatsapp_web_form at 1. rewrite Hs1. unfold ret at 1.
  destruct (load_secrets_events w tr) as [Hev | Hev];
    destruct (load_secrets w tr) as [[defaults|e] tr'] eqn:Hload;
    simpl in Hev; subst tr'; simpl;
    try (unfold twilio_form; rewrite Hs2; simpl);
    rewrite ?channel_calls_app; simpl; rewrite ?app_nil_r; reflexivity.
Qed.

Lemma page_render_sends_nothing_witness :
  channel_calls (snd (run_app (no_secrets "No secrets files found.")
     (mk_WebForm (Some "+15551234567") (Some "hi") Send_Instantly 5 false)
     (mk_TwilioForm (Some "AC1") (Some "tok") (Some "+14155238886")
        (Some "+15551234567") (Some "hi") false) []))
  = channel_calls [].
Proof.
  apply (page_render_sends_nothing (no_secrets "No secrets files found.")
           (mk_WebForm (Some "+15551234567") (Some "hi") Send_Instantly 5 false)
           (mk_TwilioForm (Some "AC1") (Some "tok") (Some "+14155238886")
              (Some "+15551234567") (Some "hi") false) []).
  - reflexivity.
  - reflexivity.
Defined.





(** ** When the clock is read *)

(** X17: a submitted, filled-in form with "Schedule for Later" reads the
    clock exactly once, after the spinner is shown and before any driver
    call, whatever the delay and whether or not the send succeeds.  The
    target is computed when the button is pressed, not when the form is
    rendered. *)
Theorem delayed_form_reads_clock_once (w : World) (f : WebForm) (tr : list Event) :
  submit_button f = true → phone_number f ≠ "" → message f ≠ "" →
  send_option f = Schedule_for_Later →
  clock_reads (snd (whatsapp_web_form w f tr)) = S (clock_reads tr) ∧
  ∃ rest, snd (whatsapp_web_form w f tr)
          = tr ++ St (st_spinner "Preparing to send message...") :: Now :: rest.
Proof.
  intros Hs Hp Hm Ho.
  rewrite whatsapp_web_form_run by assumption.
  rewrite (send_pywhatkit_message_delayed_run w _ _ _ (VBool false)
             (VInt (number_input f)));
    [| rewrite schedule_instant, Ho; reflexivity | reflexivity
     | rewrite schedule_delay, Ho; reflexivity].
  destruct (timedelta_minutes (VInt (number_input f))) as [td|e].
  2:{ simpl. rewrite <- !app_assoc, !clock_reads_app. simpl.
      split; [lia | eauto]. }
  destruct (datetime_add (clock w) td) as [target|e].
  2:{ simpl. rewrite <- !app_assoc, !clock_reads_app. simpl.
      split; [lia | eauto]. }
  destruct (kit w _) as [e|]; simpl;
    rewrite <- !app_assoc, !clock_reads_app; simpl;
    (split; [lia | eauto]).
Qed.

Lemma delayed_form_reads_clock_once_witness :
  clock_reads (snd (whatsapp_web_form (succeeding noon "")
     (mk_WebForm (Some "+15551234567") (Some "hi") Schedule_for_Later 5 true) []))
  = S (clock_reads []) ∧
  ∃ rest, snd (whatsapp_web_form (succeeding noon "")
     (mk_WebForm (Some "+15551234567") (Some "hi") Schedule_for_Later 5 true) [])
          = [] ++ St (st_spinner "Preparing to send message...") :: Now :: rest.
Proof.
  apply (delayed_form_reads_clock_once (succeeding noon "")
           (mk_WebForm (Some "+15551234567") (Some "hi") Schedule_for_Later 5 true) []).
  - reflexivity.
  - discriminate.
  - discriminate.
  - reflexivity.
Defined.
